(** * ai_fiction: the interactive-fiction session of [main.py]

    A shallow embedding of [main.py]: the profile loader [load_json], the two
    f-string prompts, the module-level session creation and [run_action] /
    [main_loop], followed by the properties of the session state machine.

    Conventions of the embedding.
    - A Python [str] is a [string]: the bytes of its UTF-8 encoding.
    - A Python exception is a constructor of [exn]; a computation that may
      raise returns a [result].
    - The mutable [game_state] dict and the Ollama server live in an explicit
      store that is threaded through [run_action] (the monad [M]).
    - What the repository imports and does not define is a variable of the
      section [Program]: the JSON parser, Python's [repr] and the Ollama
      server. *)

From Stdlib Require Import ZArith Ascii String Floats.PrimFloat.
From stdpp Require Import base gmap strings list.

Local Open Scope Z_scope.
Local Set Warnings "-register-all".

(** ** Exceptions and fallible computations *)

(** What [open] and the read inside [json.load] can raise besides
    [FileNotFoundError]. *)
Inductive read_error :=
| PermissionError
| IsADirectoryError
| UnicodeDecodeError.

Inductive exn :=
| FileNotFoundError (path : string)
| ReadError (e : read_error) (path : string)
| JSONDecodeError (msg : string)
| KeyError (key : string)
| TypeError
| ResponseError (msg : string).

Inductive result (A : Type) :=
| Return (a : A)
| Raise (e : exn).

Arguments Return {A} a.
Arguments Raise {A} e.

Definition bindR {A C} (r : result A) (k : A -> result C) : result C :=
  match r with
  | Return a => k a
  | Raise e => Raise e
  end.

Notation "'let?' x ':=' r 'in' k" := (bindR r (fun x => k))
  (at level 10, x name, r at level 100, k at level 200).

(** [try: body except FileNotFoundError: handler]. *)
Definition except_FileNotFoundError {A} (body : result A) (handler : result A)
  : result A :=
  match body with
  | Raise (FileNotFoundError _) => handler
  | _ => body
  end.

(** The state-and-exception monad: a raise keeps the store as it was at the
    point of the raise, as a Python exception leaves earlier mutations in
    place. *)
Definition M (S A : Type) : Type := S -> result A * S.

Definition ret {S A} (a : A) : M S A := fun s => (Return a, s).

Definition bind {S A C} (m : M S A) (k : A -> M S C) : M S C :=
  fun s =>
    match m s with
    | (Return a, s') => k a s'
    | (Raise e, s') => (Raise e, s')
    end.

Definition liftR {S A} (r : result A) : M S A := fun s => (r, s).

Definition gets {S A} (f : S -> A) : M S A := fun s => (Return (f s), s).

Definition modify {S} (f : S -> S) : M S unit := fun s => (Return tt, f s).

Notation "'let*' x ':=' m 'in' k" := (bind m (fun x => k))
  (at level 10, x name, m at level 100, k at level 200).

(** ** Strings *)

Definition nl : string := String (ascii_of_nat 10) EmptyString.
Definition dq : string := String (ascii_of_nat 34) EmptyString.

(** [str.lower] on one byte: [A]..[Z] go to [a]..[z]; every other byte,
    also every byte of a multi-byte UTF-8 sequence, is kept. *)
Definition lower_ascii (c : ascii) : ascii :=
  let n := nat_of_ascii c in
  if ((65 <=? n) && (n <=? 90))%nat then ascii_of_nat (n + 32) else c.

(** [str.lower]. Python lowers non-ASCII letters too. The one use of
    [lower] in the program compares the result with ['start game']; the only
    non-ASCII characters whose lower-case form contains an ASCII letter are
    U+212A (to [k]) and U+0130 (to [i] and a combining dot), and neither
    letter occurs in the sentinel, so a [str] with a non-ASCII character
    fails the comparison in Python and here alike. *)
Fixpoint lower (s : string) : string :=
  match s with
  | EmptyString => EmptyString
  | String c s' => String (lower_ascii c) (lower s')
  end.

(** ** JSON values, as [json.load] builds them

    A [dict] keeps its insertion order ([repr] shows it), hence the
    association list; its keys are distinct. *)
Inductive JSON :=
| JNull
| JBool (b : bool)
| JInt (n : Z)
| JFloat (f : float)
| JStr (s : string)
| JList (items : list JSON)
| JDict (items : list (string * JSON)).

Fixpoint dict_get (key : string) (items : list (string * JSON)) : option JSON :=
  match items with
  | [] => None
  | (k, v) :: rest => if String.eqb k key then Some v else dict_get key rest
  end.

(** [v[key]] for a string key: [KeyError] on a dict without the key,
    [TypeError] on anything that is not a dict. *)
Definition getitem (v : JSON) (key : string) : result JSON :=
  match v with
  | JDict items =>
      match dict_get key items with
      | Some x => Return x
      | None => Raise (KeyError key)
      end
  | _ => Raise TypeError
  end.

(** [v[k1][k2]...]. *)
Fixpoint subscript (v : JSON) (path : list string) : result JSON :=
  match path with
  | [] => Return v
  | key :: rest => let? x := getitem v key in subscript x rest
  end.

(** ** The file system seen by [open] *)

Inductive node :=
| File (text : string)
| Faulty (e : read_error).

(** ** Messages and requests *)

Record Message := { role : string; content : string }.

Module ChatRequest.
Record t := {
  model : string;
  messages : list Message;
  temperature : Z;
  seed : Z;
  stream : bool
}.
End ChatRequest.

(** ** The session state: the [game_state] dict once ['start'] is stored *)

Definition Turn : Type := string * string.

Module GameState.
Record t := {
  seed : Z;
  character : JSON;
  history : list Turn;
  start : string
}.
End GameState.

(** ** f-strings

    An f-string is its literal pieces and its replacement fields, evaluated
    from left to right; a field here is always [character] followed by
    string subscripts. *)
Inductive part :=
| Lit (s : string)
| Field (path : list string).

Definition NL : part := Lit nl.
Definition DQ : part := Lit dq.

Definition name_ : list string := ["name"].
Definition race_ : list string := ["physical"; "race"; "name"].
Definition class_ : list string := ["class"; "name"].
Definition behaviour_ : list string := ["behaviour"].

(** The f-string assigned to the module-level [system_prompt]. *)
Definition opening_template : list part :=
  [ Lit "You are an AI Game master. Your job is to create a start to an adventure."; NL;
    NL;
    Lit "You are playing as "; Field name_; Lit ", a "; Field race_; Lit " ";
      Field class_; Lit "."; NL;
    NL;
    Lit "### Character Behaviors (MUST be incorporated naturally into the narrative):"; NL;
    Field behaviour_; NL;
    NL;
    Lit "Instructions:"; NL;
    Lit "- Be exceptionally detailed in describing experiences that ignite the imagination."; NL;
    Lit "- Write in second person. For example: "; DQ; Lit "You are "; Field name_;
      Lit ", a "; Field race_; Lit " "; Field class_; DQ; Lit " "; NL;
    Lit "- Write in present tense. For example "; DQ; Lit "You stand at..."; DQ; Lit " "; NL;
    Lit "- First describe the character using their exact details from this data: ";
      Field []; NL;
    Lit "- Then describes where they start and what they see around them."; NL;
    Lit "- Naturally weave in at least 2-3 behavioral traits from the character's behavior list."; NL;
    Lit "- Focus on anxiety and mental health issues as defined in the character data."; NL;
    Lit "- Character's anxious thoughts must be wrapped in triple asterisks for bold italics like this: ***anxious thought here***"; NL;
    Lit "- Limit to only 1 paragraph."; NL;
    Lit "- Always end by presenting 2-4 clear options for what the player can do next."; NL;
    Lit "- Format the options as a question, for example: "; DQ;
      Lit "What would you like to do? You can: 1) Try to cast a spell, despite your shaking hands, 2) Take deep breaths to calm your racing thoughts, 3) Search for a quiet corner away from others";
      DQ; NL ].

(** The f-string assigned to [system_prompt] inside [run_action]. *)
Definition gameplay_template : list part :=
  [ Lit "You are an AI Game master. Your job is to write what happens next in a player's adventure game."; NL;
    NL;
    Lit "You are playing as "; Field name_; Lit ", a "; Field race_; Lit " ";
      Field class_; Lit "."; NL;
    NL;
    Lit "### Character Data"; NL;
    Lit "Race: "; Field race_; NL;
    Lit "Class: "; Field class_; NL;
    Lit "Behaviors (MUST be incorporated into every response):"; NL;
    Field behaviour_; NL;
    NL;
    Lit "Instructions:"; NL;
    Lit "- As you are writing the story, make sure to include the character's thoughts and feelings."; NL;
    Lit "- Each response MUST naturally incorporate at least 2 behaviors from the behavior list."; NL;
    Lit "- Character's anxious thoughts must be wrapped in triple asterisks for bold italics like this: ***anxious thought here***"; NL;
    Lit "- Show her struggle with spellcasting during panic attacks, social anxiety in crowds, and self-doubt about her abilities."; NL;
    Lit "- Limit to only 1 paragraph."; NL;
    Lit "- Always write in second person present tense. Ex. (You, "; Field name_;
      Lit " the "; Field race_; Lit " "; Field class_; Lit ", look north and see...)"; NL;
    Lit "- Always end by presenting 2-4 clear options that reflect her mental state, for example: "; NL;
    Lit "  "; DQ; Lit "What would you like to do? You can: "; NL;
    Lit "  1) Attempt to cast the spell, while thinking ***What if I fail and everyone sees?***"; NL;
    Lit "  2) Find a quiet corner to practice breathing exercises"; NL;
    Lit "  3) Try to push through the social anxiety and ask someone for help"; DQ; NL ].

Definition model_name : string := "mattw/llama2-13b-tiefighter".

Definition system_message (text : string) : Message :=
  {| role := "system"; content := text |}.
Definition user_message (text : string) : Message :=
  {| role := "user"; content := text |}.
Definition assistant_message (text : string) : Message :=
  {| role := "assistant"; content := text |}.

(** The body of the loop over [game_state['history']]: two appends per turn. *)
Fixpoint replay (turns : list Turn) : list Message :=
  match turns with
  | [] => []
  | (user_msg, assistant_msg) :: rest =>
      user_message user_msg :: assistant_message assistant_msg :: replay rest
  end.

Section Program.

(** [json.loads] on the text of a file: the parsed value or the message of
    the [JSONDecodeError]. *)
Variable parse : string -> JSON + string.

(** Python's [repr] of a value that [json.load] built. *)
Variable repr : JSON -> string.

(** The Ollama server behind [ollama.chat]: from its current state and a
    request, the ['message']['content'] of its response or the exception
    the client raises, and its next state. *)
Variable B : Type.
Variable chat : B -> ChatRequest.t -> result string * B.

Definition json_load (text : string) : result JSON :=
  match parse text with
  | inl v => Return v
  | inr msg => Raise (JSONDecodeError msg)
  end.

Definition open_read (fs : gmap string node) (path : string) : result string :=
  match fs !! path with
  | None => Raise (FileNotFoundError path)
  | Some (Faulty e) => Raise (ReadError e path)
  | Some (File text) => Return text
  end.

Definition load_json (fs : gmap string node) (filename : string) : result JSON :=
  except_FileNotFoundError
    (let? text := open_read fs (filename +:+ ".json") in json_load text)
    (Return (JDict [])).

(** A replacement field [{v}] with no format spec: [str(v)]. *)
Definition format (v : JSON) : string :=
  match v with
  | JStr s => s
  | _ => repr v
  end.

Fixpoint render (template : list part) (character : JSON) : result string :=
  match template with
  | [] => Return ""
  | Lit s :: rest =>
      let? tail := render rest character in Return (s +:+ tail)
  | Field path :: rest =>
      let? v := subscript character path in
      let? tail := render rest character in Return (format v +:+ tail)
  end.

(** The replacement fields of a template, in the order of evaluation. *)
Fixpoint fields (template : list part) : list (list string) :=
  match template with
  | [] => []
  | Lit _ :: rest => fields rest
  | Field path :: rest => path :: fields rest
  end.

(** The client and the server: every request is recorded in [sent], in
    the order of the calls. *)
Record Ollama := { server : B; sent : list ChatRequest.t }.

Definition ollama_chat (request : ChatRequest.t) : M Ollama string :=
  fun o =>
    let (response, b) := chat (server o) request in
    (response, {| server := b; sent := sent o ++ [request] |}).

(** The store of a running session. *)
Record World := { game_state : GameState.t; ollama : Ollama }.

Definition with_ollama {A} (m : M Ollama A) : M World A :=
  fun w =>
    let (r, o) := m (ollama w) in
    (r, {| game_state := game_state w; ollama := o |}).

(** [game_state['history'].append(turn)]. *)
Definition append_turn (gs : GameState.t) (turn : Turn) : GameState.t :=
  {| GameState.seed := GameState.seed gs;
     GameState.character := GameState.character gs;
     GameState.history := GameState.history gs ++ [turn];
     GameState.start := GameState.start gs |}.

Definition history_append (turn : Turn) : M World unit :=
  modify (fun w =>
    {| game_state := append_turn (game_state w) turn; ollama := ollama w |}).

(** The module-level statements up to [game_state['start'] = ...];
    [drawn] is the value of [np.random.randint(0, 1000000)]. It returns the
    globals [character] and [game_state]. *)
Definition startup (fs : gmap string node) (drawn : Z)
  : M Ollama (JSON * GameState.t) :=
  let* character := liftR (load_json fs "elara") in
  let* system_prompt := liftR (render opening_template character) in
  let messages := [system_message system_prompt; user_message "Your Start:"] in
  let* model_output :=
    ollama_chat {| ChatRequest.model := model_name;
                   ChatRequest.messages := messages;
                   ChatRequest.temperature := 0;
                   ChatRequest.seed := drawn;
                   ChatRequest.stream := false |} in
  ret (character,
       {| GameState.seed := drawn;
          GameState.character := character;
          GameState.history := [];
          GameState.start := model_output |}).

(** The message list of [run_action], from its first assignment to the
    last append. *)
Definition compose (system_prompt : string) (message : string)
    (history : list Turn) (gs : GameState.t) : list Message :=
  let messages := [system_message system_prompt] in
  let messages :=
    if (0 <? length (GameState.history gs))%nat || (0 <? length history)%nat
    then messages ++ [assistant_message (GameState.start gs)]
                  ++ replay (GameState.history gs)
    else messages in
  messages ++ [user_message message].

(** The keyword arguments of [ollama.chat] in [run_action]. *)
Definition continuation_request (system_prompt : string) (message : string)
    (history : list Turn) (gs : GameState.t) : ChatRequest.t :=
  {| ChatRequest.model := model_name;
     ChatRequest.messages := compose system_prompt message history gs;
     ChatRequest.temperature := 0;
     ChatRequest.seed := GameState.seed gs;
     ChatRequest.stream := false |}.

(** [run_action(message, history, game_state)]; [character] is the module
    global, [game_state] the dict in the store. *)
Definition run_action (character : JSON) (message : string)
    (history : list Turn) : M World string :=
  if String.eqb (lower message) "start game" then
    gets (fun w => GameState.start (game_state w))
  else
    let* system_prompt := liftR (render gameplay_template character) in
    let* request :=
      gets (fun w => continuation_request system_prompt message history
                       (game_state w)) in
    let* result := with_ollama (ollama_chat request) in
    let* _ := history_append (message, result) in
    ret result.

(** The [else] branch of [run_action] with the monad written out: the store
    after a failed rendering, a failed request and a reply. *)
Definition continue (character : JSON) (message : string) (history : list Turn)
    (w : World) : result string * World :=
  match render gameplay_template character with
  | Raise e => (Raise e, w)
  | Return system_prompt =>
      let request :=
        continuation_request system_prompt message history (game_state w) in
      match chat (server (ollama w)) request with
      | (Raise e, b) =>
          (Raise e,
           {| game_state := game_state w;
              ollama := {| server := b; sent := sent (ollama w) ++ [request] |} |})
      | (Return reply, b) =>
          (Return reply,
           {| game_state := append_turn (game_state w) (message, reply);
              ollama := {| server := b; sent := sent (ollama w) ++ [request] |} |})
      end
  end.

Definition main_loop (character : JSON) (message : string) (history : list Turn)
  : M World string :=
  run_action character message history.

(** The chat interface calls [main_loop] once per submitted message, with
    its own record of the chat so far, and shows an error when the call
    raises; the session goes on. *)
Fixpoint serve (character : JSON) (inputs : list (string * list Turn))
    (w : World) : list (result string) * World :=
  match inputs with
  | [] => ([], w)
  | (message, history) :: rest =>
      let (reply, w1) := main_loop character message history w in
      let (replies, w2) := serve character rest w1 in
      (reply :: replies, w2)
  end.

End Program.

Arguments server {B} _.
Arguments sent {B} _.
Arguments game_state {B} _.
Arguments ollama {B} _.
Arguments ollama_chat {B} chat request _.
Arguments with_ollama {B A} m _.
Arguments history_append {B} turn _.
Arguments World B : clear implicits.
Arguments Ollama B : clear implicits.
Arguments startup parse repr {B} chat fs drawn _.
Arguments run_action repr {B} chat character message history _.
Arguments continue repr {B} chat character message history w.
Arguments main_loop repr {B} chat character message history _.
Arguments serve repr {B} chat character inputs w.

(** A program starts with a server that has received nothing yet. *)
Definition fresh {B} (b : B) : Ollama B := {| server := b; sent := [] |}.

(** A request made with temperature 0 and the seed [drawn]. *)
Definition reproducible (drawn : Z) (request : ChatRequest.t) : Prop :=
  ChatRequest.temperature request = 0 /\ ChatRequest.seed request = drawn.

(** A server whose response is a function of the request alone. *)
Definition deterministic (f : ChatRequest.t -> result string)
  : unit -> ChatRequest.t -> result string * unit :=
  fun _ request => (f request, tt).

(** A whole run: start-up, then the calls of the chat interface; it returns
    the replies and the final [game_state['history']]. *)
Definition play (parse : string -> JSON + string) (repr : JSON -> string)
    {B} (chat : B -> ChatRequest.t -> result string * B)
    (fs : gmap string node) (drawn : Z) (b : B)
    (inputs : list (string * list Turn))
  : result (list (result string) * list Turn) :=
  match startup parse repr chat fs drawn (fresh b) with
  | (Raise e, _) => Raise e
  | (Return (character, gs), o) =>
      let (replies, w) :=
        serve repr chat character inputs {| game_state := gs; ollama := o |} in
      Return (replies, GameState.history (game_state w))
  end.

(** ** The spec's reading of the start sentinel: trimmed, then compared
    without regard to case

    These follow the words of the spec, not the source, which has no
    trimming; they serve to compare the two. *)

(** ASCII whitespace: tab, line feed, vertical tab, form feed, carriage
    return and space. *)
Definition is_space (c : ascii) : bool :=
  let n := nat_of_ascii c in
  ((9 <=? n) && (n <=? 13) || (n =? 32))%nat.

Fixpoint lstrip (s : string) : string :=
  match s with
  | EmptyString => EmptyString
  | String c rest => if is_space c then lstrip rest else s
  end.

Fixpoint rstrip (s : string) : string :=
  match s with
  | EmptyString => EmptyString
  | String c rest =>
      match rstrip rest with
      | EmptyString => if is_space c then EmptyString else String c EmptyString
      | kept => String c kept
      end
  end.

Definition strip (s : string) : string := rstrip (lstrip s).

(** "Case-insensitive exact match after trimming." *)
Definition spec_is_start (utterance : string) : bool :=
  String.eqb (lower (strip utterance)) "start game".

(** Two calls of the chat interface with the same utterance and with
    [history] arguments that are both empty or both non-empty. *)
Definition same_call (call1 call2 : string * list Turn) : Prop :=
  call1.1 = call2.1 /\ (call1.2 = [] <-> call2.2 = []).

(** ** A replay through the chat interface

    In one chat the interface passes as [history] its own record of the
    chat so far. The record is a function of the submissions it has seen
    and their outcomes, here [shown]; [converse] feeds the utterances one
    by one, each with the record at that point. *)
Fixpoint converse (repr : JSON -> string) {B}
    (chat : B -> ChatRequest.t -> result string * B)
    (shown : list (string * result string) -> list Turn)
    (character : JSON) (utterances : list string)
    (seen : list (string * result string)) (w : World B)
  : list (result string) * World B :=
  match utterances with
  | [] => ([], w)
  | message :: rest =>
      let (reply, w1) := main_loop repr chat character message (shown seen) w in
      let (replies, w2) :=
        converse repr chat shown character rest (seen ++ [(message, reply)]) w1 in
      (reply :: replies, w2)
  end.

(** A session from its creation on: start-up against the server [o], then
    the utterances in a new chat; it returns the replies and the final
    [game_state['history']]. *)
Definition replay_session (parse : string -> JSON + string)
    (repr : JSON -> string) {B}
    (chat : B -> ChatRequest.t -> result string * B)
    (shown : list (string * result string) -> list Turn)
    (fs : gmap string node) (drawn : Z) (o : Ollama B)
    (utterances : list string)
  : result (list (result string) * list Turn) :=
  match startup parse repr chat fs drawn o with
  | (Raise e, _) => Raise e
  | (Return (character, gs), o') =>
      let (replies, w) :=
        converse repr chat shown character utterances []
          {| game_state := gs; ollama := o' |} in
      Return (replies, GameState.history (game_state w))
  end.

(** ** A sample installation, used to run the model *)

Module Sample.

Definition elara : JSON :=
  JDict [ ("name", JStr "Elara");
          ("physical", JDict [("race", JDict [("name", JStr "Elf")])]);
          ("class", JDict [("name", JStr "Mage")]);
          ("behaviour", JList [JStr "anxious"; JStr "perfectionist"]) ].

Definition quoted (s : string) : string := dq +:+ s +:+ dq.

Definition elara_text : string :=
  "{" +:+ quoted "name" +:+ ": " +:+ quoted "Elara" +:+ ", "
  +:+ quoted "physical" +:+ ": {" +:+ quoted "race" +:+ ": {"
  +:+ quoted "name" +:+ ": " +:+ quoted "Elf" +:+ "}}, "
  +:+ quoted "class" +:+ ": {" +:+ quoted "name" +:+ ": " +:+ quoted "Mage"
  +:+ "}, " +:+ quoted "behaviour" +:+ ": [" +:+ quoted "anxious" +:+ ", "
  +:+ quoted "perfectionist" +:+ "]}".

(** A parser that knows three texts: the profile, the empty object, and
    anything else, which it rejects. *)
Definition parse (text : string) : JSON + string :=
  if String.eqb text elara_text then inl elara
  else if String.eqb text "{}" then inl (JDict [])
  else inr "Expecting value".

(** [repr] of the values of the sample: strings without quotes or escapes
    inside, lists and dicts. *)
Fixpoint repr (v : JSON) : string :=
  match v with
  | JNull => "None"
  | JBool true => "True"
  | JBool false => "False"
  | JInt _ => "0"
  | JFloat _ => "0.0"
  | JStr s => "'" +:+ s +:+ "'"
  | JList items =>
      "[" +:+ (fix go (l : list JSON) : string :=
                 match l with
                 | [] => ""
                 | [x] => repr x
                 | x :: rest => repr x +:+ ", " +:+ go rest
                 end) items +:+ "]"
  | JDict items =>
      "{" +:+ (fix go (l : list (string * JSON)) : string :=
                 match l with
                 | [] => ""
                 | [(k, x)] => "'" +:+ k +:+ "': " +:+ repr x
                 | (k, x) :: rest => "'" +:+ k +:+ "': " +:+ repr x +:+ ", " +:+ go rest
                 end) items +:+ "}"
  end.

Definition fs : gmap string node := {[ "elara.json" := File elara_text ]}.

(** A server that answers with the number of messages it was sent and the
    content of the last one, and fails on a request that ends with the
    word ["crash"]. *)
Definition last_content (messages : list Message) : string :=
  match last messages with
  | Some m => content m
  | None => ""
  end.

Definition digit (n : nat) : string :=
  String (ascii_of_nat (48 + n mod 10)) EmptyString.

Definition echo (request : ChatRequest.t) : result string :=
  let messages := ChatRequest.messages request in
  if String.eqb (last_content messages) "crash"
  then Raise (ResponseError "model runner has unexpectedly stopped")
  else Return ("echo " +:+ digit (length messages) +:+ ": "
               +:+ last_content messages).

Definition chat := deterministic echo.

Definition opening : string := "echo 2: Your Start:".

Definition gameplay_prompt : string :=
  Eval vm_compute in
    match render repr gameplay_template elara with
    | Return text => text
    | Raise _ => ""
    end.

(** An interface whose record is the exchanges that returned. *)
Definition shown (seen : list (string * result string)) : list Turn :=
  flat_map (fun exchange : string * result string =>
              match exchange.2 with
              | Return text => [(exchange.1, text)]
              | Raise _ => []
              end) seen.

(** A session with the given transcript and a server that has received
    nothing yet. *)
Definition ready (turns : list Turn) : World unit :=
  {| game_state := {| GameState.seed := 42;
                      GameState.character := elara;
                      GameState.history := turns;
                      GameState.start := opening |};
     ollama := fresh tt |}.

End Sample.

(** ** Notions for whole runs *)

(** The test at the head of [run_action]. *)
Definition is_sentinel (message : string) : bool :=
  String.eqb (lower message) "start game".

(** The calls that reach the server: all but the sentinel ones. *)
Definition continuations (inputs : list (string * list Turn))
  : list (string * list Turn) :=
  List.filter (fun call => negb (is_sentinel call.1)) inputs.

(** The turns that a sequence of calls with these replies appends: one for
    each call that is not the sentinel and that returned. *)
Fixpoint recorded (inputs : list (string * list Turn))
    (replies : list (result string)) : list Turn :=
  match inputs, replies with
  | (message, _) :: inputs', Return text :: replies' =>
      if is_sentinel message then recorded inputs' replies'
      else (message, text) :: recorded inputs' replies'
  | _ :: inputs', Raise _ :: replies' => recorded inputs' replies'
  | _, _ => []
  end.

(** The shape every request of the program has: the fixed model, no
    streaming, a system message first and a user message last. *)
Definition well_formed (request : ChatRequest.t) : Prop :=
  ChatRequest.model request = model_name
  /\ ChatRequest.stream request = false
  /\ exists system_prompt middle utterance,
       ChatRequest.messages request
       = system_message system_prompt :: middle ++ [user_message utterance].

(** Proof steps on closed terms: run both sides; refute an equation between
    two different strings. *)
Ltac evaluate := vm_compute; reflexivity.
Ltac not_sentinel := let H := fresh in intros H; vm_compute in H; discriminate H.

(** * Properties *)

Section Facts.

Variable parse : string -> JSON + string.
Variable repr : JSON -> string.
Variable B : Type.
Variable chat : B -> ChatRequest.t -> result string * B.

Implicit Types (w : World B) (o : Ollama B) (gs : GameState.t).
Implicit Types (character : JSON) (message : string) (history : list Turn).

Local Opaque gameplay_template opening_template.

(** ** The two branches of [run_action] *)

Lemma sentinel_eqb message :
  lower message = "start game" <-> String.eqb (lower message) "start game" = true.
Proof. symmetry. apply String.eqb_eq. Qed.

Lemma not_sentinel_eqb message :
  lower message <> "start game" <-> String.eqb (lower message) "start game" = false.
Proof. symmetry. apply String.eqb_neq. Qed.

Lemma run_action_start character message history w :
  lower message = "start game" ->
  run_action repr chat character message history w
  = (Return (GameState.start (game_state w)), w).
Proof.
  intros Hs. unfold run_action.
  apply sentinel_eqb in Hs. rewrite Hs. reflexivity.
Qed.

Lemma run_action_continue character message history w :
  lower message <> "start game" ->
  run_action repr chat character message history w
  = continue repr chat character message history w.
Proof.
  intros Hs. unfold run_action, continue.
  apply not_sentinel_eqb in Hs. rewrite Hs.
  unfold bind, liftR, gets, with_ollama, ollama_chat, history_append, modify, ret.
  destruct (render repr gameplay_template character) as [p|e]; [|reflexivity].
  cbn beta iota.
  destruct (chat _ _) as [[reply|e] b]; reflexivity.
Qed.

Lemma sentinel_dec message :
  {lower message = "start game"} + {lower message <> "start game"}.
Proof. apply String.string_dec. Qed.

(** ** The frame of a call *)

Lemma append_turn_frame gs turn :
  GameState.seed (append_turn gs turn) = GameState.seed gs
  /\ GameState.character (append_turn gs turn) = GameState.character gs
  /\ GameState.start (append_turn gs turn) = GameState.start gs.
Proof. repeat split. Qed.

Lemma continue_frame character message history w :
  let w' := snd (continue repr chat character message history w) in
  GameState.seed (game_state w') = GameState.seed (game_state w)
  /\ GameState.character (game_state w') = GameState.character (game_state w)
  /\ GameState.start (game_state w') = GameState.start (game_state w).
Proof.
  unfold continue.
  destruct (render repr gameplay_template character) as [p|e]; [|by repeat split].
  cbn zeta. destruct (chat _ _) as [[reply|e] b]; by repeat split.
Qed.

(** Every call either sends nothing or sends one request, which carries
    temperature 0 and the seed of the session. *)
Lemma run_action_sent character message history w :
  let w' := snd (run_action repr chat character message history w) in
  sent (ollama w') = sent (ollama w)
  \/ exists request,
       sent (ollama w') = sent (ollama w) ++ [request]
       /\ ChatRequest.temperature request = 0
       /\ ChatRequest.seed request = GameState.seed (game_state w).
Proof.
  destruct (sentinel_dec message) as [Hs|Hs].
  - rewrite run_action_start by done. by left.
  - rewrite run_action_continue by done. unfold continue.
    destruct (render repr gameplay_template character) as [p|e]; [|by left].
    cbn zeta. right.
    exists (continuation_request p message history (game_state w)).
    destruct (chat _ _) as [[reply|e] b]; by repeat split.
Qed.

Lemma run_action_frame character message history w :
  let w' := snd (run_action repr chat character message history w) in
  GameState.seed (game_state w') = GameState.seed (game_state w)
  /\ GameState.character (game_state w') = GameState.character (game_state w)
  /\ GameState.start (game_state w') = GameState.start (game_state w).
Proof.
  destruct (sentinel_dec message) as [Hs|Hs].
  - rewrite run_action_start by done. by repeat split.
  - rewrite run_action_continue by done. apply continue_frame.
Qed.

(** C1 (as amended). An utterance whose lower-case form is ["start game"]
    (compared as it is, with no trimming) makes [run_action] return
    [game_state['start']] and leave the whole store as it was: the
    transcript is not touched and no request reaches the server. *)
Theorem C1_start_sentinel_returns_opening character message history w :
  lower message = "start game" ->
  run_action repr chat character message history w
  = (Return (GameState.start (game_state w)), w)
  /\ GameState.history (game_state (snd (run_action repr chat character message history w)))
     = GameState.history (game_state w)
  /\ sent (ollama (snd (run_action repr chat character message history w)))
     = sent (ollama w).
Proof.
  intros Hs. rewrite run_action_start by done. by repeat split.
Qed.

(** C10. Whatever the call and its outcome, [run_action] leaves ['seed'],
    ['character'] and ['start'] of [game_state] as they were; a call with
    the start sentinel leaves the whole store as it was. *)
Theorem C10_run_action_frame character message history w :
  let w' := snd (run_action repr chat character message history w) in
  GameState.seed (game_state w') = GameState.seed (game_state w)
  /\ GameState.character (game_state w') = GameState.character (game_state w)
  /\ GameState.start (game_state w') = GameState.start (game_state w)
  /\ (lower message = "start game" -> w' = w).
Proof.
  pose proof (run_action_frame character message history w) as (Hseed & Hch & Hst).
  cbn zeta in *. repeat split; try done.
  intros Hs. by rewrite run_action_start.
Qed.

(** ** Rendering the prompts *)

Lemma render_succeeds template character :
  (exists text, render repr template character = Return text)
  <-> Forall (fun path => exists v, subscript character path = Return v)
        (fields template).
Proof.
  induction template as [|[s|path] rest IH]; cbn [render fields].
  - split; [constructor | by eexists].
  - rewrite <- IH. split.
    + intros [text H]. destruct (render repr rest character); [by eexists|done].
    + intros [text ->]. by eexists.
  - rewrite Forall_cons, <- IH. split.
    + intros [text H].
      destruct (subscript character path) as [v|e]; [|done]. cbn in H.
      destruct (render repr rest character); [|done]. split; by eexists.
    + intros [[v ->] [text ->]]. by eexists.
Qed.

(** The gameplay prompt reads a subset of the fields of the opening prompt:
    on the profile of a session that started, it renders. *)
Lemma gameplay_renders_after_opening character text :
  render repr opening_template character = Return text ->
  exists text', render repr gameplay_template character = Return text'.
Proof.
  intros Hopen. apply render_succeeds.
  assert (Forall (fun path => exists v, subscript character path = Return v)
            (fields opening_template)) as Hfields
    by (apply render_succeeds; by eexists).
  assert (fields opening_template
          = [name_; race_; class_; behaviour_; name_; race_; class_; []]) as Ho
    by (vm_compute; reflexivity).
  assert (fields gameplay_template
          = [name_; race_; class_; race_; class_; behaviour_; name_; race_; class_])
    as -> by (vm_compute; reflexivity).
  rewrite Ho in Hfields.
  apply Forall_cons in Hfields as [Hname Hfields].
  apply Forall_cons in Hfields as [Hrace Hfields].
  apply Forall_cons in Hfields as [Hclass Hfields].
  apply Forall_cons in Hfields as [Hbehaviour _].
  repeat constructor; done.
Qed.

Lemma startup_profile_renders fs drawn o character gs o' :
  startup parse repr chat fs drawn o = (Return (character, gs), o') ->
  exists text, render repr gameplay_template character = Return text.
Proof.
  unfold startup, bind, liftR, ollama_chat, ret.
  destruct (load_json parse fs "elara") as [c|e]; [|done].
  destruct (render repr opening_template c) as [p|e] eqn:Hopen; [|done].
  destruct (chat _ _) as [[reply|e] b]; [|done].
  intros [= <- _ _]. by apply (gameplay_renders_after_opening c p).
Qed.

(** ** The composed message list *)

Lemma nonempty_length {A} (l : list A) : (0 <? length l)%nat = true <-> l <> [].
Proof. destruct l; cbn; split; intros; done. Qed.

Lemma compose_with_opening system_prompt message history gs :
  GameState.history gs <> [] \/ history <> [] ->
  compose system_prompt message history gs
  = system_message system_prompt
      :: assistant_message (GameState.start gs)
      :: replay (GameState.history gs) ++ [user_message message].
Proof.
  intros Hne. unfold compose.
  replace ((0 <? length (GameState.history gs))%nat || (0 <? length history)%nat)
    with true; [reflexivity|].
  symmetry. apply orb_true_iff.
  destruct Hne as [H|H]; [left|right]; by apply nonempty_length.
Qed.

Lemma compose_without_opening system_prompt message gs :
  GameState.history gs = [] ->
  compose system_prompt message [] gs
  = [system_message system_prompt; user_message message].
Proof. intros H. unfold compose. by rewrite H. Qed.

(** A call that is not the sentinel and whose prompt renders sends exactly
    one request, the one of [continuation_request]. *)
Lemma run_action_request character message history w system_prompt :
  lower message <> "start game" ->
  render repr gameplay_template character = Return system_prompt ->
  sent (ollama (snd (run_action repr chat character message history w)))
  = sent (ollama w)
    ++ [continuation_request system_prompt message history (game_state w)].
Proof.
  intros Hs Hp. rewrite run_action_continue by done.
  unfold continue. rewrite Hp. cbn zeta.
  destruct (chat _ _) as [[reply|e] b]; reflexivity.
Qed.

(** C2 (as amended). In a continuation call the request carries the opening
    narrative as one assistant message right after the system message when
    [game_state['history']] is non-empty or the [history] argument of the
    chat interface is non-empty; when both are empty the request is the
    system message followed by the user message, with no opening. *)
Theorem C2_opening_follows_system character message history w system_prompt :
  lower message <> "start game" ->
  render repr gameplay_template character = Return system_prompt ->
  exists request,
    sent (ollama (snd (run_action repr chat character message history w)))
    = sent (ollama w) ++ [request]
    /\ (GameState.history (game_state w) <> [] \/ history <> [] ->
        ChatRequest.messages request
        = system_message system_prompt
            :: assistant_message (GameState.start (game_state w))
            :: replay (GameState.history (game_state w))
               ++ [user_message message])
    /\ (GameState.history (game_state w) = [] /\ history = [] ->
        ChatRequest.messages request
        = [system_message system_prompt; user_message message]).
Proof.
  intros Hs Hp.
  exists (continuation_request system_prompt message history (game_state w)).
  split; [by apply run_action_request|]. split.
  - intros Hne. by apply compose_with_opening.
  - intros [Hgs ->]. by apply compose_without_opening.
Qed.

(** C3. With the transcript [(u1, r1); (u2, r2)] and an utterance [u3] that
    is not the sentinel, the one request sent carries, in this order: the
    system message, the opening as assistant, [u1] as user, [r1] as
    assistant, [u2] as user, [r2] as assistant, [u3] as user. *)
Theorem C3_replay_order character u1 r1 u2 r2 u3 history w system_prompt :
  GameState.history (game_state w) = [(u1, r1); (u2, r2)] ->
  lower u3 <> "start game" ->
  render repr gameplay_template character = Return system_prompt ->
  exists request,
    sent (ollama (snd (run_action repr chat character u3 history w)))
    = sent (ollama w) ++ [request]
    /\ ChatRequest.messages request
       = [ system_message system_prompt;
           assistant_message (GameState.start (game_state w));
           user_message u1; assistant_message r1;
           user_message u2; assistant_message r2;
           user_message u3 ].
Proof.
  intros Hh Hs Hp.
  exists (continuation_request system_prompt u3 history (game_state w)).
  split; [by apply run_action_request|].
  cbn [continuation_request ChatRequest.messages].
  rewrite compose_with_opening by (left; by rewrite Hh).
  by rewrite Hh.
Qed.

(** C4. When a call that is not the sentinel returns a reply, the
    transcript is the old one followed by the one turn (utterance, reply),
    so one longer; the reply is what the server answered to the request of
    this call. *)
Theorem C4_successful_call_appends_turn character message history w reply w' :
  lower message <> "start game" ->
  run_action repr chat character message history w = (Return reply, w') ->
  GameState.history (game_state w')
  = GameState.history (game_state w) ++ [(message, reply)]
  /\ length (GameState.history (game_state w'))
     = S (length (GameState.history (game_state w)))
  /\ exists system_prompt b,
       render repr gameplay_template character = Return system_prompt
       /\ chat (server (ollama w))
            (continuation_request system_prompt message history (game_state w))
          = (Return reply, b).
Proof.
  intros Hs. rewrite run_action_continue by done. unfold continue.
  destruct (render repr gameplay_template character) as [p|e]; [|done].
  cbn zeta.
  destruct (chat _ _) as [[r|e] b] eqn:Hchat; [|done].
  intros [= <- <-]. cbn. split; [done|]. split.
  - rewrite length_app. cbn. lia.
  - by exists p, b.
Qed.

(** C5. When the server fails on the request of a call that is not the
    sentinel, [run_action] raises that failure and [game_state], the
    transcript included, is what it was before the call. *)
Theorem C5_backend_failure_keeps_transcript
    character message history w system_prompt e b :
  lower message <> "start game" ->
  render repr gameplay_template character = Return system_prompt ->
  chat (server (ollama w))
    (continuation_request system_prompt message history (game_state w))
  = (Raise e, b) ->
  fst (run_action repr chat character message history w) = Raise e
  /\ game_state (snd (run_action repr chat character message history w))
     = game_state w
  /\ GameState.history
       (game_state (snd (run_action repr chat character message history w)))
     = GameState.history (game_state w).
Proof.
  intros Hs Hp Hchat. rewrite run_action_continue by done.
  unfold continue. rewrite Hp. cbn zeta. by rewrite Hchat.
Qed.

(** ** The seed of a session *)

Lemma startup_sent fs drawn o :
  Forall (reproducible drawn) (sent o) ->
  Forall (reproducible drawn) (sent (snd (startup parse repr chat fs drawn o))).
Proof.
  intros Ho. unfold startup, bind, liftR, ollama_chat, ret.
  destruct (load_json parse fs "elara") as [character|e]; [|done].
  destruct (render repr opening_template character) as [p|e]; [|done].
  destruct (chat _ _) as [[reply|e] b]; cbn;
    (apply Forall_app; split; [done|]); by repeat constructor.
Qed.

Lemma startup_seed fs drawn o character gs o' :
  startup parse repr chat fs drawn o = (Return (character, gs), o') ->
  GameState.seed gs = drawn /\ GameState.history gs = []
  /\ exists request, sent o' = sent o ++ [request].
Proof.
  unfold startup, bind, liftR, ollama_chat, ret.
  destruct (load_json parse fs "elara") as [c|e]; [|done].
  destruct (render repr opening_template c) as [p|e]; [|done].
  destruct (chat _ _) as [[reply|e] b]; [|done].
  intros [= <- <- <-]. cbn. eauto.
Qed.

Lemma serve_seed character inputs : forall w drawn,
  GameState.seed (game_state w) = drawn ->
  Forall (reproducible drawn) (sent (ollama w)) ->
  let w' := snd (serve repr chat character inputs w) in
  GameState.seed (game_state w') = drawn
  /\ Forall (reproducible drawn) (sent (ollama w'))
  /\ exists more, sent (ollama w') = sent (ollama w) ++ more.
Proof.
  induction inputs as [|[message history] rest IH]; intros w drawn Hseed Hsent.
  - cbn. repeat split; try done. exists []. by rewrite app_nil_r.
  - cbn [serve]. unfold main_loop.
    pose proof (run_action_frame character message history w) as (Hs1 & _ & _).
    pose proof (run_action_sent character message history w) as Hstep.
    destruct (run_action repr chat character message history w) as [reply w1].
    cbn [snd] in Hs1, Hstep.
    assert (Forall (reproducible drawn) (sent (ollama w1))
            /\ exists more1, sent (ollama w1) = sent (ollama w) ++ more1)
      as [Hsent1 [more1 Hmore1]].
    { destruct Hstep as [->|(request & -> & Ht & Hrs)].
      - split; [done|]. exists []. by rewrite app_nil_r.
      - split; [|by eexists].
        apply Forall_app. split; [done|].
        repeat constructor; [done|]. by rewrite Hrs. }
    specialize (IH w1 drawn (eq_trans Hs1 Hseed) Hsent1).
    destruct (serve repr chat character rest w1) as [replies w2].
    cbn [snd] in IH |- *. destruct IH as (Hseed2 & Hsent2 & more2 & Hmore2).
    repeat split; try done.
    exists (more1 ++ more2). by rewrite Hmore2, Hmore1, app_assoc.
Qed.

(** C7. The seed is the value drawn at start-up. Whether start-up succeeds
    or not, every request it sends has temperature 0 and that seed; after a
    successful start-up and any sequence of calls from the chat interface,
    [game_state['seed']] is still that value and every request sent so far,
    the opening one first, has temperature 0 and that seed. *)
Theorem C7_seed_fixed_and_reused fs drawn b :
  Forall (reproducible drawn)
    (sent (snd (startup parse repr chat fs drawn (fresh b))))
  /\ forall character gs o,
       startup parse repr chat fs drawn (fresh b) = (Return (character, gs), o) ->
       GameState.seed gs = drawn
       /\ (exists opening_request, sent o = [opening_request])
       /\ forall inputs,
            let w' := snd (serve repr chat character inputs
                             {| game_state := gs; ollama := o |}) in
            GameState.seed (game_state w') = drawn
            /\ Forall (reproducible drawn) (sent (ollama w'))
            /\ exists more, sent (ollama w') = sent o ++ more.
Proof.
  split; [by apply startup_sent|].
  intros character gs o Hstart.
  pose proof (startup_sent fs drawn (fresh b) (Forall_nil_2 _)) as Hsent.
  rewrite Hstart in Hsent. cbn [snd] in Hsent.
  apply startup_seed in Hstart as (Hseed & _ & request & Hreq).
  split; [done|]. split; [by exists request|].
  intros inputs.
  by apply (serve_seed character inputs {| game_state := gs; ollama := o |}).
Qed.

(** ** The profile loader *)

Lemma load_json_missing fs filename :
  fs !! (filename +:+ ".json") = None ->
  load_json parse fs filename = Return (JDict []).
Proof. intros H. unfold load_json, open_read. by rewrite H. Qed.

Lemma load_json_file fs filename text :
  fs !! (filename +:+ ".json") = Some (File text) ->
  load_json parse fs filename = json_load parse text.
Proof.
  intros H. unfold load_json, open_read, json_load. rewrite H. cbn.
  by destruct (parse text).
Qed.

Lemma load_json_faulty fs filename e :
  fs !! (filename +:+ ".json") = Some (Faulty e) ->
  load_json parse fs filename = Raise (ReadError e (filename +:+ ".json")).
Proof. intros H. unfold load_json, open_read. by rewrite H. Qed.

(** C9. [load_json] puts the empty dict in place of a failure only for a
    file that does not exist. For an existing file with valid JSON it
    returns the parsed value; for one with malformed JSON the
    [JSONDecodeError] reaches the caller; and whenever it returns a value,
    either the file is missing and the value is the empty dict, or the
    value is what the parser made of the text of the file. *)
Theorem C9_load_json_cases fs filename :
  (fs !! (filename +:+ ".json") = None ->
   load_json parse fs filename = Return (JDict []))
  /\ (forall text v,
        fs !! (filename +:+ ".json") = Some (File text) ->
        parse text = inl v ->
        load_json parse fs filename = Return v)
  /\ (forall text msg,
        fs !! (filename +:+ ".json") = Some (File text) ->
        parse text = inr msg ->
        load_json parse fs filename = Raise (JSONDecodeError msg))
  /\ (forall v,
        load_json parse fs filename = Return v ->
        (fs !! (filename +:+ ".json") = None /\ v = JDict [])
        \/ exists text,
             fs !! (filename +:+ ".json") = Some (File text)
             /\ parse text = inl v).
Proof.
  split; [apply load_json_missing|]. split; [|split].
  - intros text v Hf Hp. rewrite (load_json_file _ _ _ Hf).
    unfold json_load. by rewrite Hp.
  - intros text msg Hf Hp. rewrite (load_json_file _ _ _ Hf).
    unfold json_load. by rewrite Hp.
  - intros v.
    destruct (fs !! (filename +:+ ".json")) as [[text|e]|] eqn:Hf.
    + rewrite (load_json_file _ _ _ Hf). unfold json_load.
      destruct (parse text) as [v'|msg] eqn:Hp; [|done].
      intros [= ->]. right. by exists text.
    + by rewrite (load_json_faulty _ _ _ Hf).
    + rewrite (load_json_missing _ _ Hf). intros [= <-]. by left.
Qed.

(** C8. With no [elara.json], [load_json] yields the empty dict, and the
    first replacement field of the opening prompt, [character['name']],
    then raises [KeyError]: start-up stops there, before any prompt exists
    and before any request is sent. *)
Theorem C8_missing_profile_stops_startup fs drawn o :
  fs !! "elara.json" = None ->
  load_json parse fs "elara" = Return (JDict [])
  /\ render repr opening_template (JDict []) = Raise (KeyError "name")
  /\ startup parse repr chat fs drawn o = (Raise (KeyError "name"), o).
Proof.
  intros Hf.
  assert (load_json parse fs "elara" = Return (JDict [])) as Hload
    by by apply load_json_missing.
  assert (render repr opening_template (JDict []) = Raise (KeyError "name"))
    as Hrender by (vm_compute; reflexivity).
  repeat split; try done.
  unfold startup, bind, liftR. by rewrite Hload, Hrender.
Qed.

End Facts.

(** ** Replaying a sequence of calls *)

Section Replay.

Variable repr : JSON -> string.
Variable B : Type.
Variable chat : B -> ChatRequest.t -> result string * B.

Lemma compose_same_emptiness system_prompt message (history1 history2 : list Turn) gs :
  (history1 = [] <-> history2 = []) ->
  compose system_prompt message history1 gs
  = compose system_prompt message history2 gs.
Proof.
  intros [H12 H21]. unfold compose.
  destruct history1 as [|t1 l1], history2 as [|t2 l2]; try reflexivity.
  - by specialize (H12 eq_refl).
  - by specialize (H21 eq_refl).
Qed.

(** [run_action] reads of its [history] argument only whether it is empty. *)
Lemma run_action_same_emptiness character message (history1 history2 : list Turn)
    (w : World B) :
  (history1 = [] <-> history2 = []) ->
  run_action repr chat character message history1 w
  = run_action repr chat character message history2 w.
Proof.
  intros Hh. destruct (sentinel_dec message) as [Hs|Hs].
  - by rewrite !run_action_start.
  - rewrite !run_action_continue by done. unfold continue, continuation_request.
    destruct (render repr gameplay_template character) as [p|e]; [|done].
    by rewrite (compose_same_emptiness p message history1 history2).
Qed.

Lemma serve_same_calls character inputs1 inputs2 :
  Forall2 same_call inputs1 inputs2 ->
  forall w : World B,
    serve repr chat character inputs1 w = serve repr chat character inputs2 w.
Proof.
  induction 1 as [|[m1 h1] [m2 h2] rest1 rest2 [Hm Hh] _ IH]; intros w.
  - reflexivity.
  - cbn in Hm, Hh. subst m2. cbn [serve]. unfold main_loop.
    rewrite (run_action_same_emptiness character m1 h1 h2 w Hh).
    destruct (run_action repr chat character m1 h2 w) as [reply w1].
    by rewrite IH.
Qed.

End Replay.

(** ** Two sessions against the same deterministic server *)

Section TwoSessions.

Variable parse : string -> JSON + string.
Variable repr : JSON -> string.
Variable f : ChatRequest.t -> result string.
Variable shown : list (string * result string) -> list Turn.

Implicit Types (w : World unit) (o : Ollama unit).

Local Opaque gameplay_template opening_template.

(** Start-up reads of the files only the profile, and its outcome does not
    depend on what the server was sent before. *)
Lemma startup_same_session fs1 fs2 drawn o1 o2 :
  load_json parse fs1 "elara" = load_json parse fs2 "elara" ->
  fst (startup parse repr (deterministic f) fs1 drawn o1)
  = fst (startup parse repr (deterministic f) fs2 drawn o2).
Proof.
  intros Hprofile. unfold startup, bind, liftR, ollama_chat, ret, deterministic.
  rewrite Hprofile.
  destruct (load_json parse fs2 "elara") as [character|e]; [|done].
  destruct (render repr opening_template character) as [p|e]; [|done].
  by destruct (f _).
Qed.

(** One call on two stores with the same [game_state]: the same reply and
    the same [game_state] after it. *)
Lemma run_action_same_session character message history w1 w2 :
  game_state w1 = game_state w2 ->
  fst (run_action repr (deterministic f) character message history w1)
  = fst (run_action repr (deterministic f) character message history w2)
  /\ game_state (snd (run_action repr (deterministic f) character message history w1))
     = game_state (snd (run_action repr (deterministic f) character message history w2)).
Proof.
  intros Hgs. destruct (sentinel_dec message) as [Hs|Hs].
  - rewrite !run_action_start by done. cbn. by rewrite Hgs.
  - rewrite !run_action_continue by done. unfold continue, deterministic.
    rewrite Hgs.
    destruct (render repr gameplay_template character) as [p|e]; [|done].
    cbn zeta. by destruct (f _).
Qed.

Lemma converse_same_session character utterances : forall seen w1 w2,
  game_state w1 = game_state w2 ->
  fst (converse repr (deterministic f) shown character utterances seen w1)
  = fst (converse repr (deterministic f) shown character utterances seen w2)
  /\ game_state (snd (converse repr (deterministic f) shown character
                        utterances seen w1))
     = game_state (snd (converse repr (deterministic f) shown character
                          utterances seen w2)).
Proof.
  induction utterances as [|message rest IH]; intros seen w1 w2 Hgs; [done|].
  cbn [converse]. unfold main_loop.
  destruct (run_action_same_session character message (shown seen) w1 w2 Hgs)
    as [Hreply Hgs1].
  destruct (run_action repr (deterministic f) character message (shown seen) w1)
    as [reply1 w1'].
  destruct (run_action repr (deterministic f) character message (shown seen) w2)
    as [reply2 w2'].
  cbn [fst snd] in Hreply, Hgs1. subst reply2.
  destruct (IH (seen ++ [(message, reply1)]) w1' w2' Hgs1) as [Hreplies Hgs2].
  destruct (converse repr (deterministic f) shown character rest
              (seen ++ [(message, reply1)]) w1') as [replies1 w1''].
  destruct (converse repr (deterministic f) shown character rest
              (seen ++ [(message, reply1)]) w2') as [replies2 w2''].
  cbn [fst snd] in *. by subst replies2.
Qed.


End TwoSessions.

(** * The properties on the sample installation *)

(** The sentinel in upper and lower case, on a fresh session. *)
Lemma C1_witness :
  lower "START game" = "start game"
  /\ (run_action Sample.repr Sample.chat Sample.elara "START game" []
        (Sample.ready [("Look around", "echo 3: Look around")])
      = (Return (GameState.start
                   (game_state (Sample.ready [("Look around", "echo 3: Look around")]))),
         Sample.ready [("Look around", "echo 3: Look around")])
      /\ GameState.history
           (game_state
              (snd (run_action Sample.repr Sample.chat Sample.elara "START game" []
                      (Sample.ready [("Look around", "echo 3: Look around")]))))
         = GameState.history
             (game_state (Sample.ready [("Look around", "echo 3: Look around")]))
      /\ sent (ollama
                 (snd (run_action Sample.repr Sample.chat Sample.elara "START game" []
                         (Sample.ready [("Look around", "echo 3: Look around")]))))
         = sent (ollama (Sample.ready [("Look around", "echo 3: Look around")]))).
Proof.
  split; [reflexivity|].
  apply (C1_start_sentinel_returns_opening Sample.repr unit Sample.chat).
  reflexivity.
Defined.

(** C1 as the spec words it fails on an utterance with a leading space: it
    is the sentinel once trimmed, yet [run_action] does not return the
    opening; it sends a request and appends a turn. *)
Lemma C1_counterexample_untrimmed :
  spec_is_start " start game" = true
  /\ GameState.start (game_state (Sample.ready [])) = "echo 2: Your Start:"
  /\ fst (run_action Sample.repr Sample.chat Sample.elara " start game" []
            (Sample.ready []))
     = Return "echo 2:  start game"
  /\ fst (run_action Sample.repr Sample.chat Sample.elara " start game" []
            (Sample.ready []))
     <> Return (GameState.start (game_state (Sample.ready [])))
  /\ GameState.history
       (game_state (snd (run_action Sample.repr Sample.chat Sample.elara
                           " start game" [] (Sample.ready []))))
     = [(" start game", "echo 2:  start game")]
  /\ length (sent (ollama (snd (run_action Sample.repr Sample.chat Sample.elara
                                  " start game" [] (Sample.ready [])))))
     = 1%nat.
Proof.
  split; [evaluate|]. split; [evaluate|]. split; [evaluate|].
  split; [intros H; vm_compute in H; discriminate H|].
  split; evaluate.
Qed.

(** Both cases of C2: a first action after the sentinel was typed (the
    chat interface passes that exchange), and a first action on an empty
    chat. *)
Lemma C2_witness :
  lower "Look around" <> "start game"
  /\ render Sample.repr gameplay_template Sample.elara = Return Sample.gameplay_prompt
  /\ (exists request,
        sent (ollama (snd (run_action Sample.repr Sample.chat Sample.elara
                             "Look around" [("start game", Sample.opening)]
                             (Sample.ready []))))
        = sent (ollama (Sample.ready [])) ++ [request]
        /\ ChatRequest.messages request
           = system_message Sample.gameplay_prompt
               :: assistant_message (GameState.start (game_state (Sample.ready [])))
               :: replay (GameState.history (game_state (Sample.ready [])))
                  ++ [user_message "Look around"])
  /\ (exists request,
        sent (ollama (snd (run_action Sample.repr Sample.chat Sample.elara
                             "Look around" [] (Sample.ready []))))
        = sent (ollama (Sample.ready [])) ++ [request]
        /\ ChatRequest.messages request
           = [system_message Sample.gameplay_prompt; user_message "Look around"]).
Proof.
  assert (lower "Look around" <> "start game") as Hns by not_sentinel.
  assert (render Sample.repr gameplay_template Sample.elara
          = Return Sample.gameplay_prompt) as Hp by evaluate.
  split; [exact Hns|]. split; [exact Hp|]. split.
  - destruct (C2_opening_follows_system Sample.repr unit Sample.chat
                Sample.elara "Look around" [("start game", Sample.opening)]
                (Sample.ready []) Sample.gameplay_prompt Hns Hp)
      as (request & Hsent & Hwith & _).
    exists request. split; [exact Hsent|].
    apply Hwith. right. discriminate.
  - destruct (C2_opening_follows_system Sample.repr unit Sample.chat
                Sample.elara "Look around" [] (Sample.ready [])
                Sample.gameplay_prompt Hns Hp)
      as (request & Hsent & _ & Hwithout).
    exists request. split; [exact Hsent|].
    apply Hwithout. split; reflexivity.
Defined.

(** C2 as the spec words it fails on the first action of a session when the
    chat interface passes an empty [history]: the opening exists, and the
    one request sent is the system message and the user message, with no
    assistant message at all. *)
Lemma C2_counterexample_first_action :
  GameState.start (game_state (Sample.ready [])) = Sample.opening
  /\ lower "Look around" <> "start game"
  /\ exists request,
       sent (ollama (snd (run_action Sample.repr Sample.chat Sample.elara
                            "Look around" [] (Sample.ready []))))
       = [request]
       /\ ChatRequest.messages request
          = [system_message Sample.gameplay_prompt; user_message "Look around"]
       /\ Forall (fun m => role m <> "assistant") (ChatRequest.messages request).
Proof.
  split; [reflexivity|]. split; [not_sentinel|].
  eexists. split; [evaluate|]. split; [reflexivity|].
  repeat constructor; discriminate.
Qed.

Lemma C3_witness :
  GameState.history
    (game_state (Sample.ready [("Look around", "echo 3: Look around");
                               ("Go north", "echo 5: Go north")]))
  = [("Look around", "echo 3: Look around"); ("Go north", "echo 5: Go north")]
  /\ lower "I cast a spell" <> "start game"
  /\ render Sample.repr gameplay_template Sample.elara = Return Sample.gameplay_prompt
  /\ exists request,
       sent (ollama (snd (run_action Sample.repr Sample.chat Sample.elara
                            "I cast a spell" []
                            (Sample.ready [("Look around", "echo 3: Look around");
                                           ("Go north", "echo 5: Go north")]))))
       = sent (ollama (Sample.ready [("Look around", "echo 3: Look around");
                                     ("Go north", "echo 5: Go north")]))
         ++ [request]
       /\ ChatRequest.messages request
          = [ system_message Sample.gameplay_prompt;
              assistant_message
                (GameState.start
                   (game_state (Sample.ready [("Look around", "echo 3: Look around");
                                              ("Go north", "echo 5: Go north")])));
              user_message "Look around"; assistant_message "echo 3: Look around";
              user_message "Go north"; assistant_message "echo 5: Go north";
              user_message "I cast a spell" ].
Proof.
  split; [reflexivity|]. split; [not_sentinel|]. split; [evaluate|].
  apply (C3_replay_order Sample.repr unit Sample.chat);
    [reflexivity | not_sentinel | evaluate].
Defined.

Lemma C4_witness :
  lower "I cast a spell" <> "start game"
  /\ run_action Sample.repr Sample.chat Sample.elara "I cast a spell" []
       (Sample.ready [])
     = (Return "echo 2: I cast a spell",
        snd (run_action Sample.repr Sample.chat Sample.elara "I cast a spell" []
               (Sample.ready [])))
  /\ GameState.history
       (game_state (snd (run_action Sample.repr Sample.chat Sample.elara
                           "I cast a spell" [] (Sample.ready []))))
     = GameState.history (game_state (Sample.ready []))
       ++ [("I cast a spell", "echo 2: I cast a spell")]
  /\ length (GameState.history
               (game_state (snd (run_action Sample.repr Sample.chat Sample.elara
                                   "I cast a spell" [] (Sample.ready [])))))
     = S (length (GameState.history (game_state (Sample.ready []))))
  /\ exists system_prompt b,
       render Sample.repr gameplay_template Sample.elara = Return system_prompt
       /\ Sample.chat (server (ollama (Sample.ready [])))
            (continuation_request system_prompt "I cast a spell" []
               (game_state (Sample.ready [])))
          = (Return "echo 2: I cast a spell", b).
Proof.
  split; [not_sentinel|]. split; [evaluate|].
  apply (C4_successful_call_appends_turn Sample.repr unit Sample.chat
           Sample.elara "I cast a spell" [] (Sample.ready []));
    [not_sentinel | evaluate].
Defined.

Lemma C5_witness :
  lower "crash" <> "start game"
  /\ render Sample.repr gameplay_template Sample.elara = Return Sample.gameplay_prompt
  /\ Sample.chat (server (ollama (Sample.ready [("Look around", "echo 3: Look around")])))
       (continuation_request Sample.gameplay_prompt "crash" []
          (game_state (Sample.ready [("Look around", "echo 3: Look around")])))
     = (Raise (ResponseError "model runner has unexpectedly stopped"), tt)
  /\ fst (run_action Sample.repr Sample.chat Sample.elara "crash" []
            (Sample.ready [("Look around", "echo 3: Look around")]))
     = Raise (ResponseError "model runner has unexpectedly stopped")
  /\ game_state (snd (run_action Sample.repr Sample.chat Sample.elara "crash" []
                        (Sample.ready [("Look around", "echo 3: Look around")])))
     = game_state (Sample.ready [("Look around", "echo 3: Look around")])
  /\ GameState.history
       (game_state (snd (run_action Sample.repr Sample.chat Sample.elara "crash" []
                           (Sample.ready [("Look around", "echo 3: Look around")]))))
     = GameState.history
         (game_state (Sample.ready [("Look around", "echo 3: Look around")])).
Proof.
  split; [not_sentinel|]. split; [evaluate|]. split; [evaluate|].
  apply (C5_backend_failure_keeps_transcript Sample.repr unit Sample.chat
           Sample.elara "crash" [] _ Sample.gameplay_prompt _ tt);
    [not_sentinel | evaluate | evaluate].
Defined.


Lemma C7_witness :
  startup Sample.parse Sample.repr Sample.chat Sample.fs 42 (fresh tt)
  = (Return (Sample.elara, game_state (Sample.ready [])),
     snd (startup Sample.parse Sample.repr Sample.chat Sample.fs 42 (fresh tt)))
  /\ (GameState.seed (game_state (Sample.ready [])) = 42
      /\ (exists opening_request,
            sent (snd (startup Sample.parse Sample.repr Sample.chat Sample.fs 42
                         (fresh tt)))
            = [opening_request])
      /\ forall inputs,
           let w' :=
             snd (serve Sample.repr Sample.chat Sample.elara inputs
                    {| game_state := game_state (Sample.ready []);
                       ollama := snd (startup Sample.parse Sample.repr Sample.chat
                                        Sample.fs 42 (fresh tt)) |}) in
           GameState.seed (game_state w') = 42
           /\ Forall (reproducible 42) (sent (ollama w'))
           /\ exists more,
                sent (ollama w')
                = sent (snd (startup Sample.parse Sample.repr Sample.chat
                               Sample.fs 42 (fresh tt))) ++ more).
Proof.
  split; [evaluate|].
  apply (proj2 (C7_seed_fixed_and_reused Sample.parse Sample.repr unit
                  Sample.chat Sample.fs 42 tt)).
  evaluate.
Defined.

Lemma C8_witness :
  (∅ : gmap string node) !! "elara.json" = None
  /\ (load_json Sample.parse ∅ "elara" = Return (JDict [])
      /\ render Sample.repr opening_template (JDict []) = Raise (KeyError "name")
      /\ startup Sample.parse Sample.repr Sample.chat ∅ 42 (fresh tt)
         = (Raise (KeyError "name"), fresh tt)).
Proof.
  split; [reflexivity|].
  apply (C8_missing_profile_stops_startup Sample.parse Sample.repr unit
           Sample.chat ∅ 42 (fresh tt)).
  reflexivity.
Defined.

(** The four cases of C9: no file, the profile, a truncated file, and the
    way back from a returned value. *)
Lemma C9_witness :
  ((∅ : gmap string node) !! ("elara" +:+ ".json") = None
   /\ load_json Sample.parse ∅ "elara" = Return (JDict []))
  /\ (Sample.fs !! ("elara" +:+ ".json") = Some (File Sample.elara_text)
      /\ Sample.parse Sample.elara_text = inl Sample.elara
      /\ load_json Sample.parse Sample.fs "elara" = Return Sample.elara)
  /\ (({[ "elara.json" := File "{" ]} : gmap string node) !! ("elara" +:+ ".json")
      = Some (File "{")
      /\ Sample.parse "{" = inr "Expecting value"
      /\ load_json Sample.parse {[ "elara.json" := File "{" ]} "elara"
         = Raise (JSONDecodeError "Expecting value"))
  /\ (load_json Sample.parse Sample.fs "elara" = Return Sample.elara
      /\ ((Sample.fs !! ("elara" +:+ ".json") = None /\ Sample.elara = JDict [])
          \/ exists text,
               Sample.fs !! ("elara" +:+ ".json") = Some (File text)
               /\ Sample.parse text = inl Sample.elara)).
Proof.
  split; [|split; [|split]].
  - split; [reflexivity|].
    apply (proj1 (C9_load_json_cases Sample.parse ∅ "elara")). reflexivity.
  - split; [evaluate|]. split; [evaluate|].
    apply (proj1 (proj2 (C9_load_json_cases Sample.parse Sample.fs "elara"))
             Sample.elara_text); evaluate.
  - split; [evaluate|]. split; [evaluate|].
    apply (proj1 (proj2 (proj2 (C9_load_json_cases Sample.parse
                                  {[ "elara.json" := File "{" ]} "elara")))
             "{"); evaluate.
  - split; [evaluate|].
    apply (proj2 (proj2 (proj2 (C9_load_json_cases Sample.parse Sample.fs
                                  "elara")))).
    evaluate.
Defined.

Lemma C10_witness :
  lower "Start Game" = "start game"
  /\ snd (run_action Sample.repr Sample.chat Sample.elara "Start Game" []
            (Sample.ready [("Look around", "echo 3: Look around")]))
     = Sample.ready [("Look around", "echo 3: Look around")]
  /\ GameState.seed
       (game_state (snd (run_action Sample.repr Sample.chat Sample.elara
                           "I cast a spell" []
                           (Sample.ready [("Look around", "echo 3: Look around")]))))
     = 42.
Proof.
  split; [reflexivity|]. split.
  - apply (C10_run_action_frame Sample.repr unit Sample.chat Sample.elara
             "Start Game" [] (Sample.ready [("Look around", "echo 3: Look around")])).
    reflexivity.
  - apply (C10_run_action_frame Sample.repr unit Sample.chat Sample.elara
             "I cast a spell" []
             (Sample.ready [("Look around", "echo 3: Look around")])).
Defined.

(** * Further properties of the code *)

Section Calls.

Variable parse : string -> JSON + string.
Variable repr : JSON -> string.
Variable B : Type.
Variable chat : B -> ChatRequest.t -> result string * B.

Implicit Types (w : World B) (o : Ollama B) (gs : GameState.t).
Implicit Types (character : JSON) (message : string) (history : list Turn).

Local Opaque gameplay_template opening_template.

Lemma is_sentinel_true message :
  is_sentinel message = true <-> lower message = "start game".
Proof. unfold is_sentinel. apply String.eqb_eq. Qed.

Lemma is_sentinel_false message :
  is_sentinel message = false <-> lower message <> "start game".
Proof. unfold is_sentinel. apply String.eqb_neq. Qed.

(** ** One call *)

(** A call that returns from the [else] branch: what it read and the store
    it leaves. *)
Lemma run_action_returns character message history w reply w' :
  lower message <> "start game" ->
  run_action repr chat character message history w = (Return reply, w') ->
  exists system_prompt b,
    render repr gameplay_template character = Return system_prompt
    /\ chat (server (ollama w))
         (continuation_request system_prompt message history (game_state w))
       = (Return reply, b)
    /\ w' = {| game_state := append_turn (game_state w) (message, reply);
               ollama :=
                 {| server := b;
                    sent := sent (ollama w)
                            ++ [continuation_request system_prompt message
                                  history (game_state w)] |} |}.
Proof.
  intros Hs. rewrite run_action_continue by done. unfold continue.
  destruct (render repr gameplay_template character) as [p|e]; [|done].
  cbn zeta. destruct (chat _ _) as [[r|e] b] eqn:Hchat; [|done].
  intros [= <- <-]. by exists p, b.
Qed.

(** X1. Whenever [run_action] raises, [game_state] is what it was. The
    exception is either the one of rendering the prompt, and then the whole
    store is untouched and nothing was sent, or the one the server raised
    on the one request of the call. *)
Theorem run_action_raise character message history w e :
  fst (run_action repr chat character message history w) = Raise e ->
  game_state (snd (run_action repr chat character message history w))
  = game_state w
  /\ ((render repr gameplay_template character = Raise e
       /\ snd (run_action repr chat character message history w) = w)
      \/ exists system_prompt b,
           render repr gameplay_template character = Return system_prompt
           /\ chat (server (ollama w))
                (continuation_request system_prompt message history (game_state w))
              = (Raise e, b)
           /\ sent (ollama (snd (run_action repr chat character message history w)))
              = sent (ollama w)
                ++ [continuation_request system_prompt message history
                      (game_state w)]).
Proof.
  destruct (sentinel_dec message) as [Hs|Hs].
  - by rewrite run_action_start.
  - rewrite run_action_continue by done. unfold continue.
    destruct (render repr gameplay_template character) as [p|e'].
    + cbn zeta. destruct (chat _ _) as [[r|e'] b] eqn:Hchat; [done|].
      cbn. intros [= ->]. split; [done|]. right. by exists p, b.
    + cbn. intros [= ->]. split; [done|]. by left.
Qed.

(** ** The prompts and the profile *)

Lemma render_first_field template character path rest e :
  fields template = path :: rest ->
  subscript character path = Raise e ->
  render repr template character = Raise e.
Proof.
  intros Hf Hsub. induction template as [|[s|path'] template IH]; [done| |].
  - cbn [render]. cbn [fields] in Hf. by rewrite (IH Hf).
  - cbn [render]. cbn [fields] in Hf. injection Hf as -> _. by rewrite Hsub.
Qed.

(** X2. Both prompts render on exactly the same profiles: those on which
    [character['name']], [character['physical']['race']['name']],
    [character['class']['name']] and [character['behaviour']] all exist. *)
Theorem prompts_need_four_fields character :
  let readable path := exists v, subscript character path = Return v in
  ((exists text, render repr opening_template character = Return text)
   <-> readable name_ /\ readable race_ /\ readable class_ /\ readable behaviour_)
  /\ ((exists text, render repr gameplay_template character = Return text)
      <-> readable name_ /\ readable race_ /\ readable class_ /\ readable behaviour_).
Proof.
  clear parse chat. intros readable.
  assert (fields opening_template
          = [name_; race_; class_; behaviour_; name_; race_; class_; []]) as Ho
    by (vm_compute; reflexivity).
  assert (fields gameplay_template
          = [name_; race_; class_; race_; class_; behaviour_; name_; race_; class_])
    as Hg by (vm_compute; reflexivity).
  assert (readable []) as Hnil by (by exists character).
  rewrite !render_succeeds, Ho, Hg. fold readable.
  rewrite !Forall_cons, Forall_nil. tauto.
Qed.

(** X3. A profile on which [character['name']] raises, because it is not
    a dict or has no such key, stops start-up with that exception before
    anything is sent, and the prompt of [run_action] raises it too. *)
Theorem profile_without_name_stops_startup fs drawn o character e :
  load_json parse fs "elara" = Return character ->
  getitem character "name" = Raise e ->
  startup parse repr chat fs drawn o = (Raise e, o)
  /\ render repr gameplay_template character = Raise e.
Proof.
  intros Hload Hname.
  assert (subscript character name_ = Raise e) as Hsub
    by (cbn; by rewrite Hname).
  assert (exists rest, fields opening_template = name_ :: rest) as [ro Ho]
    by (eexists; vm_compute; reflexivity).
  assert (exists rest, fields gameplay_template = name_ :: rest) as [rg Hg]
    by (eexists; vm_compute; reflexivity).
  split; [|by apply (render_first_field _ _ _ _ _ Hg)].
  unfold startup, bind, liftR. rewrite Hload.
  by rewrite (render_first_field _ _ _ _ _ Ho Hsub).
Qed.

Lemma except_FileNotFoundError_catches {A} (body handler : result A) path :
  (forall path', handler <> Raise (FileNotFoundError path')) ->
  except_FileNotFoundError body handler <> Raise (FileNotFoundError path).
Proof.
  intros Hhandler. unfold except_FileNotFoundError.
  destruct body as [a|[]]; first [done | apply Hhandler].
Qed.


(** X5. In a session that started, rendering cannot fail: whatever
    [run_action] raises there is what the server raised on the request of
    that call. *)
Theorem started_session_raises_only_server_errors
    fs drawn o character gs o' message history w e :
  startup parse repr chat fs drawn o = (Return (character, gs), o') ->
  fst (run_action repr chat character message history w) = Raise e ->
  exists system_prompt b,
    render repr gameplay_template character = Return system_prompt
    /\ chat (server (ollama w))
         (continuation_request system_prompt message history (game_state w))
       = (Raise e, b).
Proof.
  intros Hstart.
  apply (startup_profile_renders parse repr B chat) in Hstart as [p Hp].
  destruct (sentinel_dec message) as [Hs|Hs].
  - by rewrite run_action_start.
  - rewrite run_action_continue by done. unfold continue. rewrite Hp.
    cbn zeta. destruct (chat _ _) as [[r|e'] b] eqn:Hchat; [done|].
    cbn. intros [= ->]. exists p, b. by rewrite Hchat.
Qed.

End Calls.

Section Runs.

Variable parse : string -> JSON + string.
Variable repr : JSON -> string.
Variable B : Type.
Variable chat : B -> ChatRequest.t -> result string * B.

Implicit Types (w : World B) (o : Ollama B) (gs : GameState.t).
Implicit Types (character : JSON) (message : string) (history : list Turn).
Implicit Types (inputs : list (string * list Turn)).

Local Opaque gameplay_template opening_template.

(** ** What one call adds *)

Lemma run_action_recorded character message history w :
  GameState.history
    (game_state (snd (run_action repr chat character message history w)))
  = GameState.history (game_state w)
    ++ recorded [(message, history)]
         [fst (run_action repr chat character message history w)].
Proof.
  destruct (sentinel_dec message) as [Hs|Hs].
  - rewrite run_action_start by done. cbn.
    apply is_sentinel_true in Hs. rewrite Hs. by rewrite app_nil_r.
  - rewrite run_action_continue by done. unfold continue.
    apply is_sentinel_false in Hs.
    destruct (render repr gameplay_template character) as [p|e];
      [|cbn; by rewrite app_nil_r].
    cbn zeta. destruct (chat _ _) as [[r|e] b]; cbn.
    + by rewrite Hs.
    + by rewrite app_nil_r.
Qed.

Lemma recorded_cons call reply inputs replies :
  recorded (call :: inputs) (reply :: replies)
  = recorded [call] [reply] ++ recorded inputs replies.
Proof.
  destruct call as [message history], reply as [text|e]; cbn; [|done].
  by destruct (is_sentinel message).
Qed.

Lemma run_action_sent_count character message history w system_prompt :
  render repr gameplay_template character = Return system_prompt ->
  length (sent (ollama (snd (run_action repr chat character message history w))))
  = (length (sent (ollama w)) + length (continuations [(message, history)]))%nat.
Proof.
  intros Hp. unfold continuations. cbn [List.filter fst].
  destruct (sentinel_dec message) as [Hs|Hs].
  - rewrite run_action_start by done.
    apply is_sentinel_true in Hs. rewrite Hs. cbn. lia.
  - rewrite (run_action_request repr B chat _ _ _ _ _ Hs Hp).
    apply is_sentinel_false in Hs. rewrite Hs. cbn. by rewrite length_app.
Qed.

Lemma compose_shape system_prompt message history gs :
  exists middle,
    compose system_prompt message history gs
    = system_message system_prompt :: middle ++ [user_message message].
Proof.
  unfold compose.
  destruct ((0 <? length (GameState.history gs))%nat || (0 <? length history)%nat).
  - by exists (assistant_message (GameState.start gs)
               :: replay (GameState.history gs)).
  - by exists [].
Qed.

Lemma continuation_request_well_formed system_prompt message history gs :
  well_formed (continuation_request system_prompt message history gs).
Proof.
  repeat split.
  destruct (compose_shape system_prompt message history gs) as [middle Hm].
  by exists system_prompt, middle, message.
Qed.

Lemma run_action_well_formed character message history w :
  Forall well_formed (sent (ollama w)) ->
  Forall well_formed
    (sent (ollama (snd (run_action repr chat character message history w)))).
Proof.
  intros Hw. destruct (sentinel_dec message) as [Hs|Hs].
  - by rewrite run_action_start.
  - destruct (render repr gameplay_template character) as [p|e] eqn:Hp.
    + rewrite (run_action_request repr B chat _ _ _ _ _ Hs Hp).
      apply Forall_app. split; [done|].
      constructor; [apply continuation_request_well_formed | constructor].
    + rewrite run_action_continue by done. unfold continue. by rewrite Hp.
Qed.

(** ** Sequences of calls *)

(** X6. After any sequence of calls the transcript is the one before,
    followed, in the order of the calls, by one turn (utterance, reply) for
    each call that was not the sentinel and returned; nothing is removed
    or reordered, and there is one reply per call. *)
Theorem serve_transcript character inputs : forall w,
  GameState.history (game_state (snd (serve repr chat character inputs w)))
  = GameState.history (game_state w)
    ++ recorded inputs (fst (serve repr chat character inputs w))
  /\ length (fst (serve repr chat character inputs w)) = length inputs.
Proof.
  induction inputs as [|[message history] rest IH]; intros w.
  - cbn. by rewrite app_nil_r.
  - cbn [serve]. unfold main_loop.
    pose proof (run_action_recorded character message history w) as Hstep.
    destruct (run_action repr chat character message history w) as [reply w1].
    cbn [fst snd] in Hstep.
    destruct (IH w1) as [Hrest Hlen].
    destruct (serve repr chat character rest w1) as [replies w2].
    cbn [fst snd] in *. split; [|cbn; by rewrite Hlen].
    by rewrite recorded_cons, Hrest, Hstep, app_assoc.
Qed.

(** X7. Sentinel calls are no-ops wherever they occur: the store after a
    sequence of calls is the store after the same sequence without its
    sentinel calls, and every sentinel call is answered with the opening
    of the session. *)
Theorem serve_skips_sentinel character inputs : forall w,
  snd (serve repr chat character inputs w)
  = snd (serve repr chat character (continuations inputs) w)
  /\ forall i message history,
       inputs !! i = Some (message, history) ->
       lower message = "start game" ->
       fst (serve repr chat character inputs w) !! i
       = Some (Return (GameState.start (game_state w))).
Proof.
  induction inputs as [|[message history] rest IH]; intros w.
  - split; [done|]. by intros i m h.
  - unfold continuations in *. cbn [List.filter fst].
    destruct (sentinel_dec message) as [Hs|Hs].
    + pose proof Hs as Hb. apply is_sentinel_true in Hb. rewrite Hb.
      cbn [negb serve]. unfold main_loop.
      rewrite run_action_start by done.
      destruct (IH w) as [Hstore Hreplies].
      destruct (serve repr chat character rest w) as [replies w2].
      cbn [fst snd] in *. split; [done|].
      intros [|i] m h Hi Hm; [done|]. by apply (Hreplies i m h).
    + pose proof Hs as Hb. apply is_sentinel_false in Hb. rewrite Hb.
      cbn [negb serve]. unfold main_loop.
      pose proof (run_action_frame repr B chat character message history w)
        as (_ & _ & Hstart).
      destruct (run_action repr chat character message history w) as [reply w1].
      cbn [snd] in Hstart.
      destruct (IH w1) as [Hstore Hreplies].
      destruct (serve repr chat character rest w1) as [replies w2].
      destruct (serve repr chat character
                  (List.filter (fun call => negb (is_sentinel call.1)) rest) w1)
        as [replies' w2'].
      cbn [fst snd] in *. split; [done|].
      intros [|i] m h Hi Hm.
      * cbn in Hi. by injection Hi as -> _.
      * cbn. rewrite <- Hstart. by apply (Hreplies i m h).
Qed.

(** On a profile on which the prompt renders, a sequence of calls sends
    one request for each call that is not the sentinel, whether the server
    answers or fails, and none for the others. *)
Lemma serve_request_count character system_prompt inputs : forall w,
  render repr gameplay_template character = Return system_prompt ->
  length (sent (ollama (snd (serve repr chat character inputs w))))
  = (length (sent (ollama w)) + length (continuations inputs))%nat.
Proof.
  induction inputs as [|[message history] rest IH]; intros w Hp.
  - cbn. lia.
  - cbn [serve]. unfold main_loop.
    pose proof (run_action_sent_count character message history w _ Hp) as Hstep.
    destruct (run_action repr chat character message history w) as [reply w1].
    cbn [snd] in Hstep.
    specialize (IH w1 Hp).
    destruct (serve repr chat character rest w1) as [replies w2].
    cbn [snd] in *. rewrite IH, Hstep.
    unfold continuations. cbn [List.filter fst].
    destruct (negb (is_sentinel message)); cbn; lia.
Qed.

Lemma recorded_never_sentinel inputs : forall replies,
  Forall (fun turn : Turn => lower turn.1 <> "start game")
    (recorded inputs replies).
Proof.
  induction inputs as [|[message history] rest IH]; intros [|[text|e] replies];
    cbn; try done.
  destruct (is_sentinel message) eqn:Hs; [done|].
  constructor; [by apply is_sentinel_false|done].
Qed.

(** X8. The sentinel is never recorded as a player utterance: a transcript
    free of it stays free of it through any sequence of calls. *)
Theorem transcript_never_holds_sentinel character inputs w :
  Forall (fun turn : Turn => lower turn.1 <> "start game")
    (GameState.history (game_state w)) ->
  Forall (fun turn : Turn => lower turn.1 <> "start game")
    (GameState.history (game_state (snd (serve repr chat character inputs w)))).
Proof.
  revert w. induction inputs as [|[message history] rest IH]; intros w Hw;
    [done|].
  cbn [serve]. unfold main_loop.
  pose proof (run_action_recorded character message history w) as Hstep.
  destruct (run_action repr chat character message history w) as [reply w1].
  cbn [fst snd] in Hstep.
  assert (Forall (fun turn : Turn => lower turn.1 <> "start game")
            (GameState.history (game_state w1))) as Hw1.
  { rewrite Hstep. apply Forall_app. split; [done|].
    apply recorded_never_sentinel. }
  specialize (IH w1 Hw1).
  by destruct (serve repr chat character rest w1) as [replies w2].
Qed.

Lemma serve_well_formed character inputs : forall w,
  Forall well_formed (sent (ollama w)) ->
  Forall well_formed (sent (ollama (snd (serve repr chat character inputs w)))).
Proof.
  induction inputs as [|[message history] rest IH]; intros w Hw; [done|].
  cbn [serve]. unfold main_loop.
  pose proof (run_action_well_formed character message history w Hw) as Hstep.
  destruct (run_action repr chat character message history w) as [reply w1].
  cbn [snd] in Hstep. specialize (IH w1 Hstep).
  by destruct (serve repr chat character rest w1) as [replies w2].
Qed.

Lemma startup_well_formed fs drawn o :
  Forall well_formed (sent o) ->
  Forall well_formed (sent (snd (startup parse repr chat fs drawn o))).
Proof.
  intros Ho. unfold startup, bind, liftR, ollama_chat, ret.
  destruct (load_json parse fs "elara") as [character|e]; [|done].
  destruct (render repr opening_template character) as [p|e]; [|done].
  destruct (chat _ _) as [[reply|e] b]; cbn;
    (apply Forall_app; split; [done|]); constructor; try constructor;
    repeat split; by exists p, [], "Your Start:".
Qed.

(** X9. Every request of a run, from the opening one of start-up to the
    last call of the chat interface, names the model
    ['mattw/llama2-13b-tiefighter'], has streaming off, begins with a
    system message and ends with a user message. *)
Theorem every_request_well_formed fs drawn b :
  Forall well_formed (sent (snd (startup parse repr chat fs drawn (fresh b))))
  /\ forall character gs o inputs,
       startup parse repr chat fs drawn (fresh b) = (Return (character, gs), o) ->
       Forall well_formed
         (sent (ollama (snd (serve repr chat character inputs
                               {| game_state := gs; ollama := o |})))).
Proof.
  pose proof (startup_well_formed fs drawn (fresh b) (Forall_nil_2 _)) as Hs.
  split; [done|].
  intros character gs o inputs Hstart. rewrite Hstart in Hs.
  by apply (serve_well_formed character inputs {| game_state := gs; ollama := o |}).
Qed.

(** X10. A run that started sends one request at start-up and then one per
    call that is not the sentinel: rendering cannot fail any more, so no
    such call is dropped before it reaches the server. *)
Theorem started_run_request_count fs drawn b character gs o inputs :
  startup parse repr chat fs drawn (fresh b) = (Return (character, gs), o) ->
  length (sent (ollama (snd (serve repr chat character inputs
                              {| game_state := gs; ollama := o |}))))
  = S (length (continuations inputs)).
Proof.
  intros Hstart.
  destruct (startup_profile_renders parse repr B chat _ _ _ _ _ _ Hstart)
    as [p Hp].
  apply (startup_seed parse repr B chat) in Hstart as (_ & _ & request & Hreq).
  rewrite (serve_request_count character p inputs _ Hp).
  cbn [ollama]. rewrite Hreq. by cbn.
Qed.

End Runs.

Section Requests.

Variable repr : JSON -> string.
Variable B : Type.
Variable chat : B -> ChatRequest.t -> result string * B.

Implicit Types (w : World B) (gs : GameState.t).
Implicit Types (character : JSON) (message : string) (history : list Turn).

Local Opaque gameplay_template opening_template.

Lemma replay_app turns turn :
  replay (turns ++ [turn])
  = replay turns ++ [user_message turn.1; assistant_message turn.2].
Proof.
  induction turns as [|[u r] rest IH]; [by destruct turn|].
  cbn [replay app]. by rewrite IH.
Qed.

Lemma replay_inj turns1 : forall turns2,
  replay turns1 = replay turns2 -> turns1 = turns2.
Proof.
  induction turns1 as [|[u1 r1] rest1 IH]; intros [|[u2 r2] rest2]; cbn;
    try done.
  intros [= -> -> Hrest]. by rewrite (IH _ Hrest).
Qed.

(** The request that follows a recorded turn is the request of that turn
    with the reply and the new utterance added at the end. *)
Lemma compose_grows system_prompt message1 history1 reply1 message2 history2 gs :
  GameState.history gs <> [] \/ history1 <> [] ->
  compose system_prompt message2 history2 (append_turn gs (message1, reply1))
  = compose system_prompt message1 history1 gs
    ++ [assistant_message reply1; user_message message2].
Proof.
  intros Hne.
  rewrite (compose_with_opening _ _ _ gs Hne).
  rewrite compose_with_opening
    by (left; cbn; by destruct (GameState.history gs)).
  cbn [append_turn GameState.history GameState.start].
  rewrite replay_app. cbn [fst snd].
  rewrite !app_comm_cons, <- !app_assoc. reflexivity.
Qed.

(** X11. Two calls in a row that are not the sentinel, the first of which
    returns, on a session whose transcript is non-empty or with a non-empty
    [history] argument in the first: the second request repeats the
    message list of the first and adds the first reply, as assistant, and
    the second utterance, as user. *)
Theorem successive_requests_extend
    character message1 history1 reply1 message2 history2 w w1 :
  lower message1 <> "start game" ->
  lower message2 <> "start game" ->
  GameState.history (game_state w) <> [] \/ history1 <> [] ->
  run_action repr chat character message1 history1 w = (Return reply1, w1) ->
  exists request1 request2,
    sent (ollama w1) = sent (ollama w) ++ [request1]
    /\ sent (ollama (snd (run_action repr chat character message2 history2 w1)))
       = sent (ollama w) ++ [request1; request2]
    /\ ChatRequest.messages request2
       = ChatRequest.messages request1
         ++ [assistant_message reply1; user_message message2].
Proof.
  intros Hs1 Hs2 Hne Hcall.
  apply run_action_returns in Hcall as (p & b & Hp & _ & ->); [|done].
  exists (continuation_request p message1 history1 (game_state w)),
         (continuation_request p message2 history2
            (append_turn (game_state w) (message1, reply1))).
  split; [done|]. split.
  - rewrite (run_action_request repr B chat _ _ _ _ _ Hs2 Hp).
    cbn [ollama sent game_state]. by rewrite <- app_assoc.
  - by apply compose_grows.
Qed.

(** X12. A request that carries the opening determines the session it came
    from: two such requests with the same message list have the same
    prompt, the same opening, the same transcript and the same utterance. *)
Theorem request_determines_transcript
    system_prompt1 message1 history1 gs1 system_prompt2 message2 history2 gs2 :
  GameState.history gs1 <> [] \/ history1 <> [] ->
  GameState.history gs2 <> [] \/ history2 <> [] ->
  ChatRequest.messages (continuation_request system_prompt1 message1 history1 gs1)
  = ChatRequest.messages (continuation_request system_prompt2 message2 history2 gs2) ->
  system_prompt1 = system_prompt2
  /\ GameState.start gs1 = GameState.start gs2
  /\ GameState.history gs1 = GameState.history gs2
  /\ message1 = message2.
Proof.
  intros Hne1 Hne2. cbn [continuation_request ChatRequest.messages].
  rewrite (compose_with_opening _ _ _ _ Hne1), (compose_with_opening _ _ _ _ Hne2).
  intros [= Hp Hstart Htail].
  apply app_inj_tail in Htail as [Hreplay [= Hm]].
  by rewrite (replay_inj _ _ Hreplay).
Qed.

End Requests.

(** * The further properties on the sample installation *)

Lemma run_action_raise_witness :
  fst (run_action Sample.repr Sample.chat Sample.elara "crash" []
         (Sample.ready [("Look around", "echo 3: Look around")]))
  = Raise (ResponseError "model runner has unexpectedly stopped")
  /\ game_state (snd (run_action Sample.repr Sample.chat Sample.elara "crash" []
                        (Sample.ready [("Look around", "echo 3: Look around")])))
     = game_state (Sample.ready [("Look around", "echo 3: Look around")]).
Proof.
  split; [evaluate|].
  apply (run_action_raise Sample.repr unit Sample.chat Sample.elara "crash" []
           (Sample.ready [("Look around", "echo 3: Look around")])
           (ResponseError "model runner has unexpectedly stopped")).
  evaluate.
Defined.

Lemma prompts_need_four_fields_witness :
  ((exists v, subscript Sample.elara name_ = Return v)
   /\ (exists v, subscript Sample.elara race_ = Return v)
   /\ (exists v, subscript Sample.elara class_ = Return v)
   /\ (exists v, subscript Sample.elara behaviour_ = Return v))
  /\ (exists text, render Sample.repr opening_template Sample.elara = Return text)
  /\ (exists text, render Sample.repr gameplay_template Sample.elara = Return text).
Proof.
  assert ((exists v, subscript Sample.elara name_ = Return v)
          /\ (exists v, subscript Sample.elara race_ = Return v)
          /\ (exists v, subscript Sample.elara class_ = Return v)
          /\ (exists v, subscript Sample.elara behaviour_ = Return v)) as Hfields
    by (repeat split; eexists; reflexivity).
  split; [exact Hfields|]. split.
  - exact (proj2 (proj1 (prompts_need_four_fields Sample.repr Sample.elara)) Hfields).
  - exact (proj2 (proj2 (prompts_need_four_fields Sample.repr Sample.elara)) Hfields).
Defined.

(** A profile file that holds the empty object. *)
Lemma profile_without_name_witness :
  load_json Sample.parse {[ "elara.json" := File "{}" ]} "elara" = Return (JDict [])
  /\ getitem (JDict []) "name" = Raise (KeyError "name")
  /\ startup Sample.parse Sample.repr Sample.chat {[ "elara.json" := File "{}" ]}
       42 (fresh tt)
     = (Raise (KeyError "name"), fresh tt)
  /\ render Sample.repr gameplay_template (JDict []) = Raise (KeyError "name").
Proof.
  split; [evaluate|]. split; [reflexivity|].
  apply (profile_without_name_stops_startup Sample.parse Sample.repr unit
           Sample.chat {[ "elara.json" := File "{}" ]} 42 (fresh tt) (JDict [])
           (KeyError "name")); [evaluate | reflexivity].
Defined.


Lemma started_session_witness :
  startup Sample.parse Sample.repr Sample.chat Sample.fs 42 (fresh tt)
  = (Return (Sample.elara, game_state (Sample.ready [])),
     snd (startup Sample.parse Sample.repr Sample.chat Sample.fs 42 (fresh tt)))
  /\ fst (run_action Sample.repr Sample.chat Sample.elara "crash" []
            (Sample.ready []))
     = Raise (ResponseError "model runner has unexpectedly stopped")
  /\ exists system_prompt b,
       render Sample.repr gameplay_template Sample.elara = Return system_prompt
       /\ Sample.chat (server (ollama (Sample.ready [])))
            (continuation_request system_prompt "crash" []
               (game_state (Sample.ready [])))
          = (Raise (ResponseError "model runner has unexpectedly stopped"), b).
Proof.
  split; [evaluate|]. split; [evaluate|].
  apply (started_session_raises_only_server_errors Sample.parse Sample.repr unit
           Sample.chat Sample.fs 42 (fresh tt) Sample.elara
           (game_state (Sample.ready []))
           (snd (startup Sample.parse Sample.repr Sample.chat Sample.fs 42
                   (fresh tt)))
           "crash" [] (Sample.ready [])); evaluate.
Defined.

Lemma serve_skips_sentinel_witness :
  [("start game", []); ("Look around", [("start game", Sample.opening)]);
   ("START GAME", [])] !! 2%nat
  = Some ("START GAME", [])
  /\ lower "START GAME" = "start game"
  /\ fst (serve Sample.repr Sample.chat Sample.elara
            [("start game", []); ("Look around", [("start game", Sample.opening)]);
             ("START GAME", [])]
            (Sample.ready []))
     !! 2%nat
     = Some (Return (GameState.start (game_state (Sample.ready [])))).
Proof.
  split; [reflexivity|]. split; [reflexivity|].
  apply (proj2 (serve_skips_sentinel Sample.repr unit Sample.chat Sample.elara
                  [("start game", []);
                   ("Look around", [("start game", Sample.opening)]);
                   ("START GAME", [])]
                  (Sample.ready []))
           2%nat "START GAME" []); reflexivity.
Defined.

Lemma transcript_never_holds_sentinel_witness :
  Forall (fun turn : Turn => lower turn.1 <> "start game")
    (GameState.history
       (game_state (Sample.ready [("Look around", "echo 3: Look around")])))
  /\ Forall (fun turn : Turn => lower turn.1 <> "start game")
       (GameState.history
          (game_state
             (snd (serve Sample.repr Sample.chat Sample.elara
                     [("start game", []); ("Go north", []); ("crash", [])]
                     (Sample.ready [("Look around", "echo 3: Look around")]))))).
Proof.
  assert (Forall (fun turn : Turn => lower turn.1 <> "start game")
            (GameState.history
               (game_state (Sample.ready [("Look around", "echo 3: Look around")]))))
    as Hw by (repeat constructor; not_sentinel).
  split; [exact Hw|].
  exact (transcript_never_holds_sentinel Sample.repr unit Sample.chat Sample.elara
           [("start game", []); ("Go north", []); ("crash", [])]
           (Sample.ready [("Look around", "echo 3: Look around")]) Hw).
Defined.

Lemma every_request_well_formed_witness :
  startup Sample.parse Sample.repr Sample.chat Sample.fs 42 (fresh tt)
  = (Return (Sample.elara, game_state (Sample.ready [])),
     snd (startup Sample.parse Sample.repr Sample.chat Sample.fs 42 (fresh tt)))
  /\ Forall well_formed
       (sent (ollama
                (snd (serve Sample.repr Sample.chat Sample.elara
                        [("Look around", []); ("start game", []); ("crash", [])]
                        {| game_state := game_state (Sample.ready []);
                           ollama := snd (startup Sample.parse Sample.repr
                                            Sample.chat Sample.fs 42 (fresh tt)) |})))).
Proof.
  split; [evaluate|].
  apply (proj2 (every_request_well_formed Sample.parse Sample.repr unit
                  Sample.chat Sample.fs 42 tt)).
  evaluate.
Defined.

Lemma started_run_request_count_witness :
  startup Sample.parse Sample.repr Sample.chat Sample.fs 42 (fresh tt)
  = (Return (Sample.elara, game_state (Sample.ready [])),
     snd (startup Sample.parse Sample.repr Sample.chat Sample.fs 42 (fresh tt)))
  /\ length
       (sent (ollama
                (snd (serve Sample.repr Sample.chat Sample.elara
                        [("Look around", []); ("start game", []); ("crash", [])]
                        {| game_state := game_state (Sample.ready []);
                           ollama := snd (startup Sample.parse Sample.repr
                                            Sample.chat Sample.fs 42 (fresh tt)) |}))))
     = S (length (continuations
                    [("Look around", []); ("start game", []); ("crash", [])])).
Proof.
  split; [evaluate|].
  apply (started_run_request_count Sample.parse Sample.repr unit Sample.chat
           Sample.fs 42 tt).
  evaluate.
Defined.

Lemma successive_requests_extend_witness :
  lower "Look around" <> "start game"
  /\ lower "Go north" <> "start game"
  /\ (GameState.history (game_state (Sample.ready [])) <> []
      \/ [("start game", Sample.opening)] <> [])
  /\ run_action Sample.repr Sample.chat Sample.elara "Look around"
       [("start game", Sample.opening)] (Sample.ready [])
     = (Return "echo 3: Look around",
        snd (run_action Sample.repr Sample.chat Sample.elara "Look around"
               [("start game", Sample.opening)] (Sample.ready [])))
  /\ exists request1 request2,
       sent (ollama (snd (run_action Sample.repr Sample.chat Sample.elara
                            "Look around" [("start game", Sample.opening)]
                            (Sample.ready []))))
       = sent (ollama (Sample.ready [])) ++ [request1]
       /\ sent (ollama
                  (snd (run_action Sample.repr Sample.chat Sample.elara "Go north" []
                          (snd (run_action Sample.repr Sample.chat Sample.elara
                                  "Look around" [("start game", Sample.opening)]
                                  (Sample.ready []))))))
          = sent (ollama (Sample.ready [])) ++ [request1; request2]
       /\ ChatRequest.messages request2
          = ChatRequest.messages request1
            ++ [assistant_message "echo 3: Look around"; user_message "Go north"].
Proof.
  split; [not_sentinel|]. split; [not_sentinel|].
  split; [right; discriminate|]. split; [evaluate|].
  apply (successive_requests_extend Sample.repr unit Sample.chat Sample.elara
           "Look around" [("start game", Sample.opening)] "echo 3: Look around"
           "Go north" [] (Sample.ready []));
    [not_sentinel | not_sentinel | right; discriminate | evaluate].
Defined.

Lemma request_determines_transcript_witness :
  (GameState.history
     (game_state (Sample.ready [("Look around", "echo 3: Look around")])) <> []
   \/ ([] : list Turn) <> [])
  /\ (GameState.history
        (game_state (Sample.ready [("Look around", "echo 3: Look around")])) <> []
      \/ [("start game", Sample.opening)] <> [])
  /\ ChatRequest.messages
       (continuation_request Sample.gameplay_prompt "Go north" []
          (game_state (Sample.ready [("Look around", "echo 3: Look around")])))
     = ChatRequest.messages
         (continuation_request Sample.gameplay_prompt "Go north"
            [("start game", Sample.opening)]
            (game_state (Sample.ready [("Look around", "echo 3: Look around")])))
  /\ "Go north" = "Go north".
Proof.
  split; [left; discriminate|]. split; [left; discriminate|]. split; [evaluate|].
  apply (request_determines_transcript Sample.gameplay_prompt "Go north" []
           (game_state (Sample.ready [("Look around", "echo 3: Look around")]))
           Sample.gameplay_prompt "Go north" [("start game", Sample.opening)]
           (game_state (Sample.ready [("Look around", "echo 3: Look around")])));
    [left; discriminate | left; discriminate | evaluate].
Defined.
